(** * Analytics ingestion and aggregation queries of the EcomAPI service

    Shallow embedding of [store/analytics_store.go], [utils/helpers.go]
    and [handlers/track_handlers.go], with the earlier [TrackEvent] of
    [unnamed/part_002] beside the current one, and of the session,
    middleware and account code.  Go's [(T, error)] results become
    [GoRes]; the ClickHouse connection is a record of oracle functions; the
    store calls a function issues are written to a trace threaded by a small
    state monad, so that "no store operation is issued" is a statement about
    that trace.  Times are [Z] nanoseconds; [float64] is Rocq's primitive
    binary64 [float]. *)

From Stdlib Require Import String List ZArith Bool Lia.
From Stdlib Require Import Floats.
Import ListNotations.
Open Scope string_scope.

(** ** Data model ([models/event.go]) *)

Record AnalyticsEvent := mkEvent {
  EventID : string;
  EventType : string;
  UserID : string;
  SessionID : string;
  Timestamp : Z;
  PagePath : string;
  Referrer : string;
  UserAgent : string;
  IPAddress : string;
  DurationMs : Z;
  Products : string;   (* json.RawMessage, opaque *)
  Location : string;
  EventData : string   (* json.RawMessage, opaque *)
}.

Record TopPathResult := mkTopPath { TP_PagePath : string; TP_Count : Z }.

(** [store.EventTypeCountByTime]; [EventType *string] is an [option]. *)
Record EventTypeCountByTime := mkCount {
  ECT_Time : Z;
  ECT_EventType : option string;
  ECT_Count : Z
}.

(** Go's [(T, error)] result. *)
Inductive GoRes (A : Type) := Ok (a : A) | Err (msg : string).
Arguments Ok {A} a.
Arguments Err {A} msg.

(** ** The ClickHouse connection *)

(** Bound query arguments ([args ...interface{}]). *)
Inductive Arg := ATime (t : Z) | AStr (s : string) | AU64 (n : Z).

(** Column values of a result row. *)
Inductive Value := VTime (t : Z) | VU64 (n : Z) | VStr (s : string) | VF64 (f : float).

(** Answer of [Conn.Query]: an error, or the rows the iterator yields
    followed by the error [rows.Err()] reports (if any). *)
Inductive QueryResult :=
  | QErr (msg : string)
  | QRows (rows : list (list Value)) (iterErr : option string).

(** The connection as oracles; [None] is a nil error. *)
Record Conn := mkConn {
  conn_query : string -> list Arg -> QueryResult;
  conn_prepare : string -> option string;
  conn_append : AnalyticsEvent -> option string;
  conn_send : option string
}.

(** Store calls, in the order they are issued. *)
Inductive StoreOp :=
  | OpQuery (q : string) (args : list Arg)
  | OpQueryRow (q : string) (args : list Arg)
  | OpPrepareBatch (q : string)
  | OpAppend (e : AnalyticsEvent)
  | OpSend.

(** A state monad over the trace of issued store calls. *)
Definition M (A : Type) := list StoreOp -> A * list StoreOp.
Definition ret {A} (a : A) : M A := fun tr => (a, tr).
Definition bind {A B} (m : M A) (k : A -> M B) : M B :=
  fun tr => let (a, tr') := m tr in k a tr'.
Notation "x <- m ;; k" := (bind m (fun x => k))
  (at level 61, m at next level, right associativity).
Definition issue (op : StoreOp) : M unit := fun tr => (tt, (tr ++ [op])%list).

(** ** [utils/helpers.go] *)

Definition IsValidInterval (interval : string) : bool :=
  match interval with
  | "Minute" | "Hour" | "Day" | "Week" | "Month" | "Quarter" | "Year" => true
  | _ => false
  end.

(** ** [store/analytics_store.go] *)

Section AnalyticsStore.
Variable db : Conn.

Definition Query (q : string) (args : list Arg) : M QueryResult :=
  _ <- issue (OpQuery q args) ;; ret (db.(conn_query) q args).

(** [sql.ErrNoRows.Error()]. *)
Definition errNoRows := "sql: no rows in result set".

(** [QueryRow(ctx, q, args...).Scan(&f)] with one [float64] destination. *)
Definition QueryRowScanF64 (q : string) (args : list Arg) : M (GoRes float) :=
  _ <- issue (OpQueryRow q args) ;;
  ret (match db.(conn_query) q args with
       | QErr e => Err e
       | QRows [] _ => Err errNoRows
       | QRows ([VF64 f] :: _) _ => Ok f
       | QRows (_ :: _) _ => Err "sql: Scan error"
       end).

(** Appends one event after the other; an append error is logged and skipped. *)
Fixpoint appendAll (events : list AnalyticsEvent) : M unit :=
  match events with
  | [] => ret tt
  | e :: es => _ <- issue (OpAppend e) ;; appendAll es
  end.

Definition insertQuery :=
  "INSERT INTO analytics_events (event_id, event_type, user_id, session_id, timestamp, page_path, referrer, user_agent, ip_address, duration_ms, products, location, event_data) VALUES (?, ?, ?, ?, ?, ?, ?, ?, ?, ?, ?, ?, ?)".

Definition InsertAnalyticsEvents (events : list AnalyticsEvent) : M (GoRes unit) :=
  match events with
  | [] => ret (Ok tt)
  | _ =>
    _ <- issue (OpPrepareBatch insertQuery) ;;
    match db.(conn_prepare) insertQuery with
    | Some e => ret (Err ("failed to prepare batch insert: " ++ e))
    | None =>
      _ <- appendAll events ;;
      _ <- issue OpSend ;;
      match db.(conn_send) with
      | Some e => ret (Err ("failed to send batch: " ++ e))
      | None => ret (Ok tt)
      end
    end
  end.

(** The [for rows.Next()] loop every row-returning query shares: a row
    that does not scan into the destinations is logged and skipped
    ([continue]); the others are appended in order. *)
Fixpoint scanRows {A : Type} (scanRow : list Value -> option A) (rows : list (list Value)) : list A :=
  match rows with
  | [] => []
  | r :: rs =>
    match scanRow r with
    | Some x => x :: scanRows scanRow rs
    | None => scanRows scanRow rs
    end
  end.

(** One row of [GetEventCountsOverTime]: three destinations when filtering
    by type, two otherwise. *)
Definition scanEventCountRow (isFilteringByType : bool) (r : list Value) : option EventTypeCountByTime :=
  if isFilteringByType then
    match r with
    | [VTime timeBucket; VU64 count; VStr eventTypeDB] => Some (mkCount timeBucket (Some eventTypeDB) count)
    | _ => None
    end
  else
    match r with
    | [VTime timeBucket; VU64 count] => Some (mkCount timeBucket None count)
    | _ => None
    end.

(** The query text [GetEventCountsOverTime] builds (whitespace normalised). *)
Definition eventCountsQuery (interval eventTypeFilter : string) : string :=
  let isFilteringByType := negb (String.eqb eventTypeFilter "") in
  let selectCols := "toStartOf" ++ interval ++ "(timestamp) as time_bucket, count() as total_events" in
  let groupByCols := "time_bucket" in
  let whereClause := "WHERE timestamp >= ? AND timestamp <= ?" in
  let orderByCols := "time_bucket ASC" in
  let selectCols := if isFilteringByType then selectCols ++ ", event_type" else selectCols in
  let groupByCols := if isFilteringByType then groupByCols ++ ", event_type" else groupByCols in
  let whereClause := if isFilteringByType then whereClause ++ " AND event_type = ?" else whereClause in
  let orderByCols := if isFilteringByType then orderByCols ++ ", event_type ASC" else orderByCols in
  "SELECT " ++ selectCols ++ " FROM analytics_events " ++ whereClause ++
  " GROUP BY " ++ groupByCols ++ " ORDER BY " ++ orderByCols.

Definition GetEventCountsOverTime (interval : string) (start end_ : Z) (eventTypeFilter : string)
  : M (GoRes (list EventTypeCountByTime)) :=
  let args := [ATime start; ATime end_] in
  if negb (IsValidInterval interval) then ret (Err ("invalid interval: " ++ interval)) else
  let isFilteringByType := negb (String.eqb eventTypeFilter "") in
  let args := if isFilteringByType then (args ++ [AStr eventTypeFilter])%list else args in
  rows <- Query (eventCountsQuery interval eventTypeFilter) args ;;
  ret (match rows with
       | QErr e => Err ("failed to query event counts over time: " ++ e)
       | QRows _ (Some e) => Err ("row error during event counts over time query: " ++ e)
       | QRows rs None => Ok (scanRows (scanEventCountRow isFilteringByType) rs)
       end).

Definition GetAverageEventDuration (eventTypeFilter : string) (start end_ : Z) : M (GoRes float) :=
  let query := "SELECT avg(duration_ms) FROM analytics_events WHERE timestamp >= ? AND timestamp <= ?" in
  let args := [ATime start; ATime end_] in
  let query := if negb (String.eqb eventTypeFilter "") then query ++ " AND event_type = ?" else query in
  let args := if negb (String.eqb eventTypeFilter "") then (args ++ [AStr eventTypeFilter])%list else args in
  r <- QueryRowScanF64 query args ;;
  ret (match r with
       | Err e => if String.eqb e errNoRows then Ok 0%float
                  else Err ("failed to query average event duration: " ++ e)
       | Ok avgDuration => Ok avgDuration
       end).

(** The query text of [GetAverageCustomEventParameter]: [paramName] is
    spliced in by [fmt.Sprintf] with the verb ['%s']. *)
Definition avgParamQuery (paramName : string) : string :=
  "SELECT avg(JSONExtractFloat(toString(event_data), '" ++ paramName ++
  "')) FROM analytics_events WHERE event_type = ? AND timestamp >= ? AND timestamp <= ?".

Definition GetAverageCustomEventParameter (eventTypeFilter paramName : string) (start end_ : Z)
  : M (GoRes float) :=
  if String.eqb paramName "" then
    ret (Err "parameter name for average calculation cannot be empty")
  else
  let query := avgParamQuery paramName in
  let args := [AStr eventTypeFilter; ATime start; ATime end_] in
  r <- QueryRowScanF64 query args ;;
  ret (match r with
       | Err e => if String.eqb e errNoRows then Ok 0%float
                  else Err ("failed to query average of custom event parameter '" ++ paramName ++ "': " ++ e)
       | Ok avgValue => if PrimFloat.is_nan avgValue then Ok 0%float else Ok avgValue
       end).

Definition scanUniqueUsersRow (r : list Value) : option EventTypeCountByTime :=
  match r with
  | [VTime timeBucket; VU64 uniqueUsers] => Some (mkCount timeBucket None uniqueUsers)
  | _ => None
  end.

Definition uniqueUsersQuery (interval : string) : string :=
  "SELECT toStartOf" ++ interval ++ "(timestamp) AS time_bucket, uniq(user_id) AS unique_users FROM analytics_events WHERE timestamp >= ? AND timestamp <= ? GROUP BY time_bucket ORDER BY time_bucket ASC".

Definition GetUniqueUsersOverTime (interval : string) (start end_ : Z)
  : M (GoRes (list EventTypeCountByTime)) :=
  if negb (IsValidInterval interval) then ret (Err ("invalid interval: " ++ interval)) else
  rows <- Query (uniqueUsersQuery interval) [ATime start; ATime end_] ;;
  ret (match rows with
       | QErr e => Err ("failed to query unique users over time: " ++ e)
       | QRows _ (Some e) => Err ("error iterating rows for unique users: " ++ e)
       | QRows rs None => Ok (scanRows scanUniqueUsersRow rs)
       end).

Definition scanTopPathRow (r : list Value) : option TopPathResult :=
  match r with
  | [VStr pagePath; VU64 count] => Some (mkTopPath pagePath count)
  | _ => None
  end.

Definition topPathsQuery :=
  "SELECT page_path, count() as view_count FROM analytics_events WHERE event_type = 'page_view' AND timestamp >= ? AND timestamp <= ? GROUP BY page_path ORDER BY view_count DESC LIMIT ?".

Definition GetTopNPagePaths (start end_ : Z) (limit : Z) : M (GoRes (list TopPathResult)) :=
  let limit := if Z.eqb limit 0 then 10%Z else limit in
  rows <- Query topPathsQuery [ATime start; ATime end_; AU64 limit] ;;
  ret (match rows with
       | QErr e => Err ("failed to query top page paths: " ++ e)
       | QRows _ (Some e) => Err ("error iterating rows for top page paths: " ++ e)
       | QRows rs None => Ok (scanRows scanTopPathRow rs)
       end).

End AnalyticsStore.

(** ** [strconv.ParseUint(s, 10, 64)] *)

Fixpoint parseDigits (s : string) (acc : Z) : option Z :=
  match s with
  | EmptyString => Some acc
  | String ch rest =>
    let d := (Z.of_nat (Ascii.nat_of_ascii ch) - 48)%Z in
    if (0 <=? d)%Z && (d <=? 9)%Z then parseDigits rest (acc * 10 + d)%Z else None
  end.

(** [None] is a non-nil error (syntax error on an empty string or a
    non-digit, range error above [2^64 - 1]). *)
Definition ParseUint10 (s : string) : option Z :=
  if String.eqb s "" then None else
  match parseDigits s 0 with
  | Some n => if (n <? 2 ^ 64)%Z then Some n else None
  | None => None
  end.

(** ** [handlers/track_handlers.go] *)

(** What the handlers read from [*gin.Context]. *)
Record GinCtx := mkGin {
  ginQuery : string -> string;                    (* c.Query: "" when absent *)
  ginClientIP : string;                           (* c.ClientIP() *)
  ginUserID : string;                             (* c.GetString("user_id") *)
  ginBody : option (list AnalyticsEvent)          (* c.ShouldBindJSON; None on error *)
}.

(** Successive results of [uuid.New().String()] and [time.Now().UTC()]:
    the [k]-th call (from 0) within one request returns the [k]-th value. *)
Record Env := mkEnv {
  uuidNew : nat -> string;
  timeNow : nat -> Z
}.

Inductive Body :=
  | BNone
  | BError (msg : string)
  | BSuccess
  | BCounts (rows : list EventTypeCountByTime)
  | BAverage (eventType : string) (value : float)
  | BTopPaths (rows : list TopPathResult).

Record Resp := mkResp { status : Z; body : Body }.

Definition set_EventID (e : AnalyticsEvent) (v : string) : AnalyticsEvent :=
  mkEvent v e.(EventType) e.(UserID) e.(SessionID) e.(Timestamp) e.(PagePath) e.(Referrer)
          e.(UserAgent) e.(IPAddress) e.(DurationMs) e.(Products) e.(Location) e.(EventData).
Definition set_IPAddress (e : AnalyticsEvent) (v : string) : AnalyticsEvent :=
  mkEvent e.(EventID) e.(EventType) e.(UserID) e.(SessionID) e.(Timestamp) e.(PagePath) e.(Referrer)
          e.(UserAgent) v e.(DurationMs) e.(Products) e.(Location) e.(EventData).
Definition set_UserID (e : AnalyticsEvent) (v : string) : AnalyticsEvent :=
  mkEvent e.(EventID) e.(EventType) v e.(SessionID) e.(Timestamp) e.(PagePath) e.(Referrer)
          e.(UserAgent) e.(IPAddress) e.(DurationMs) e.(Products) e.(Location) e.(EventData).
Definition set_Timestamp (e : AnalyticsEvent) (v : Z) : AnalyticsEvent :=
  mkEvent e.(EventID) e.(EventType) e.(UserID) e.(SessionID) v e.(PagePath) e.(Referrer)
          e.(UserAgent) e.(IPAddress) e.(DurationMs) e.(Products) e.(Location) e.(EventData).

(** The body of the [for _, event := range incomingEvents] loop of the
    [TrackEvent] revision in [unnamed/part_002] (lines 44-53), for the
    [k]-th event.  The current revision, [TrackHandlers.normalizeOne]
    below, has no actor-id or timestamp step. *)
Definition normalizeOne (env : Env) (clientIP userId : string) (k : nat)
  (event : AnalyticsEvent) : AnalyticsEvent :=
  let event := set_EventID event (env.(uuidNew) k) in
  let event := set_IPAddress event clientIP in
  let event := if negb (String.eqb event.(UserID) "") then set_UserID event userId else event in
  set_Timestamp event (env.(timeNow) k).

Fixpoint normalizeFrom (env : Env) (clientIP userId : string) (k : nat)
  (events : list AnalyticsEvent) : list AnalyticsEvent :=
  match events with
  | [] => []
  | e :: es => normalizeOne env clientIP userId k e :: normalizeFrom env clientIP userId (S k) es
  end.

Definition week := (7 * 24 * 3600 * 1000000000)%Z.

Definition badStart := mkResp 400 (BError "Invalid 'start' timestamp format. Use RFC3339 (e.g., 2006-01-02T15:04:05Z)").
Definition badEnd := mkResp 400 (BError "Invalid 'end' timestamp format. Use RFC3339 (e.g., 2006-01-02T15:04:05Z)").

Section Handlers.
Variable db : Conn.
Variable env : Env.
(** [time.Parse(time.RFC3339, s)]; [None] is a parse error. *)
Variable parseRFC3339 : string -> option Z.

(** The [start]/[end] parsing every stats handler repeats; the clock is
    read once per defaulted bound, [start] first. *)
Definition parseStartEnd (c : GinCtx) : Resp + (Z * Z) :=
  let startParam := c.(ginQuery) "start" in
  let '(start, k) :=
    if String.eqb startParam "" then (Some (env.(timeNow) 0 - week)%Z, 1%nat)
    else (parseRFC3339 startParam, 0%nat) in
  match start with
  | None => inl badStart
  | Some start =>
    let endParam := c.(ginQuery) "end" in
    match (if String.eqb endParam "" then Some (env.(timeNow) k) else parseRFC3339 endParam) with
    | None => inl badEnd
    | Some end_ => inr (start, end_)
    end
  end.

(** [TrackEvent] of [unnamed/part_002]: reads [c.GetString] of the
    [user_id] key and answers [{success: true}] ([BSuccess]). *)
Definition TrackEvent (c : GinCtx) : M Resp :=
  let userId := c.(ginUserID) in
  match c.(ginBody) with
  | None => ret (mkResp 400 (BError "Invalid request body"))
  | Some [] => ret (mkResp 200 BNone)
  | Some incomingEvents =>
    let eventsToInsert := normalizeFrom env c.(ginClientIP) userId 0 incomingEvents in
    r <- InsertAnalyticsEvents db eventsToInsert ;;
    ret (match r with
         | Err _ => mkResp 500 (BError "Failed to record analytics events")
         | Ok _ => mkResp 200 BSuccess
         end)
  end.

Definition GetEventCountsOverTimeH (c : GinCtx) : M Resp :=
  let interval := c.(ginQuery) "interval" in
  if String.eqb interval "" then
    ret (mkResp 400 (BError "interval query parameter is required (e.g., 'day', 'hour')"))
  else
  let eventTypeFilter := c.(ginQuery) "eventType" in
  match parseStartEnd c with
  | inl r => ret r
  | inr (start, end_) =>
    r <- GetEventCountsOverTime db interval start end_ eventTypeFilter ;;
    ret (match r with
         | Err _ => mkResp 500 (BError "Failed to retrieve event statistics")
         | Ok results => mkResp 200 (BCounts results)
         end)
  end.

Definition GetAverageEventDurationH (c : GinCtx) : M Resp :=
  let eventTypeFilter := c.(ginQuery) "eventType" in
  match parseStartEnd c with
  | inl r => ret r
  | inr (start, end_) =>
    r <- GetAverageEventDuration db eventTypeFilter start end_ ;;
    ret (match r with
         | Err _ => mkResp 500 (BError "Failed to retrieve average event duration statistics")
         | Ok avgDuration => mkResp 200 (BAverage eventTypeFilter avgDuration)
         end)
  end.

Definition GetAverageCustomEventParameterH (c : GinCtx) : M Resp :=
  let eventTypeFilter := c.(ginQuery) "eventType" in
  let paramName := c.(ginQuery) "paramName" in
  if String.eqb eventTypeFilter "" then
    ret (mkResp 400 (BError "eventType query parameter is required"))
  else if String.eqb paramName "" then
    ret (mkResp 400 (BError "paramName query parameter is required (e.g., 'revenue', 'score')"))
  else
  match parseStartEnd c with
  | inl r => ret r
  | inr (start, end_) =>
    r <- GetAverageCustomEventParameter db eventTypeFilter paramName start end_ ;;
    ret (match r with
         | Err _ => mkResp 500 (BError "Failed to retrieve average custom event parameter statistics")
         | Ok avgValue => mkResp 200 (BAverage eventTypeFilter avgValue)
         end)
  end.

Definition GetUniqueUsersOverTimeH (c : GinCtx) : M Resp :=
  let interval := c.(ginQuery) "interval" in
  if String.eqb interval "" then
    ret (mkResp 400 (BError "interval query parameter is required (e.g., 'Day', 'Hour')"))
  else
  match parseStartEnd c with
  | inl r => ret r
  | inr (start, end_) =>
    r <- GetUniqueUsersOverTime db interval start end_ ;;
    ret (match r with
         | Err _ => mkResp 500 (BError "Failed to retrieve unique user statistics")
         | Ok results => mkResp 200 (BCounts results)
         end)
  end.

Definition badLimit := mkResp 400 (BError "Invalid 'limit' parameter. Must be a positive integer.").

(** The [limit] handling of [GetTopNPagePaths]. *)
Definition parseLimit (limitParam : string) : Resp + Z :=
  if String.eqb limitParam "" then inr 10%Z else
  match ParseUint10 limitParam with
  | None => inl badLimit
  | Some parsedLimit => if Z.eqb parsedLimit 0 then inl badLimit else inr parsedLimit
  end.

Definition GetTopNPagePathsH (c : GinCtx) : M Resp :=
  match parseStartEnd c with
  | inl r => ret r
  | inr (start, end_) =>
    match parseLimit (c.(ginQuery) "limit") with
    | inl r => ret r
    | inr limit =>
      r <- GetTopNPagePaths db start end_ limit ;;
      ret (match r with
           | Err _ => mkResp 500 (BError "Failed to retrieve top page paths statistics")
           | Ok results => mkResp 200 (BTopPaths results)
           end)
    end
  end.

End Handlers.

(** [TrackEvent] of [handlers/track_handlers.go]: the loop (lines 44-49)
    sets only the id and the origin address, the context's [user_id] is
    never read, and success is [c.Status(http.StatusOK)] with no body. *)
Module TrackHandlers.

Definition normalizeOne (env : Env) (clientIP : string) (k : nat)
  (event : AnalyticsEvent) : AnalyticsEvent :=
  let event := set_EventID event (env.(uuidNew) k) in
  set_IPAddress event clientIP.

Fixpoint normalizeFrom (env : Env) (clientIP : string) (k : nat)
  (events : list AnalyticsEvent) : list AnalyticsEvent :=
  match events with
  | [] => []
  | e :: es => normalizeOne env clientIP k e :: normalizeFrom env clientIP (S k) es
  end.

Definition TrackEvent (db : Conn) (env : Env) (c : GinCtx) : M Resp :=
  match c.(ginBody) with
  | None => ret (mkResp 400 (BError "Invalid request body"))
  | Some [] => ret (mkResp 200 BNone)
  | Some incomingEvents =>
    let eventsToInsert := normalizeFrom env c.(ginClientIP) 0 incomingEvents in
    r <- InsertAnalyticsEvents db eventsToInsert ;;
    ret (match r with
         | Err _ => mkResp 500 (BError "Failed to record analytics events")
         | Ok _ => mkResp 200 BNone
         end)
  end.

End TrackHandlers.

(** ** Notions the properties below are phrased with *)


(** An identifier allow-list: non-empty, ASCII letters, digits and [_]. *)
Definition identChar (ch : Ascii.ascii) : bool :=
  let n := Ascii.nat_of_ascii ch in
  (Nat.leb 65 n && Nat.leb n 90) || (Nat.leb 97 n && Nat.leb n 122) ||
  (Nat.leb 48 n && Nat.leb n 57) || Nat.eqb n 95.

Fixpoint allIdentChars (s : string) : bool :=
  match s with
  | EmptyString => true
  | String ch rest => identChar ch && allIdentChars rest
  end.

Definition identAllowed (s : string) : bool := negb (String.eqb s "") && allIdentChars s.

(** The store answers the filtered event-count query only with rows whose
    [event_type] column is the bound filter value ([WHERE event_type = ?]). *)
Definition storeHonoursTypeFilter (db : Conn) (interval : string) (start end_ : Z)
  (eventTypeFilter : string) : Prop :=
  forall rows ie, conn_query db (eventCountsQuery interval eventTypeFilter)
                    [ATime start; ATime end_; AStr eventTypeFilter] = QRows rows ie ->
  forall r s, In r rows -> nth_error r 2 = Some (VStr s) -> s = eventTypeFilter.

(** Concrete contexts used by the examples. *)
Definition queryOf (kvs : list (string * string)) (k : string) : string :=
  match find (fun kv => String.eqb (fst kv) k) kvs with
  | Some (_, v) => v
  | None => ""
  end.

Definition sampleEvent (ty uid ip : string) : AnalyticsEvent :=
  mkEvent "" ty uid "s1" 0 "/home" "" "ua" ip 120 "" "" "{}".

Definition tickingEnv : Env := mkEnv (fun k => "id-" ++ String (Ascii.ascii_of_nat (48 + k)) "")
                                     (fun k => Z.of_nat k).

Definition constRowsConn (rows : list (list Value)) : Conn :=
  mkConn (fun _ _ => QRows rows None) (fun _ => None) (fun _ => None) None.

Definition parseNone (s : string) : option Z := None.

(** The store answering every query with one not-a-number average, as
    ClickHouse's [avg] does over zero rows. *)
Definition nanConn := constRowsConn [[VF64 nan]].

Definition topCtx (limit : string) : GinCtx :=
  mkGin (queryOf [("start", "s"); ("end", "e"); ("limit", limit)]) "1.2.3.4" "" None.
Definition parseSE (s : string) : option Z :=
  if String.eqb s "s" then Some 0%Z else if String.eqb s "e" then Some 100%Z else None.

Definition clickRows := [[VTime 0; VU64 3; VStr "click"]; [VTime 86400; VU64 5; VStr "click"]].

Definition mixedRows := [[VTime 0; VU64 2]; [VStr "oops"]; [VTime 60; VU64 1]].

Example IsValidInterval_day : IsValidInterval "Day" = true.
Proof. reflexivity. Qed.
Example IsValidInterval_lower_day : IsValidInterval "day" = false.
Proof. reflexivity. Qed.
Example ParseUint10_examples :
  ParseUint10 "3" = Some 3%Z /\ ParseUint10 "007" = Some 7%Z /\ ParseUint10 "0" = Some 0%Z /\
  ParseUint10 "-1" = None /\ ParseUint10 "abc" = None /\ ParseUint10 "" = None /\
  ParseUint10 "18446744073709551616" = None.
Proof. repeat split; reflexivity. Qed.
Example identAllowed_examples :
  identAllowed "revenue" = true /\ identAllowed "x') OR 1=1 --" = false.
Proof. split; reflexivity. Qed.

(** ** [utils/session_utils.go]: the in-memory session table *)

(** [map[string]string] as a finite function; [None] is an absent key. *)
Definition SessionMap := string -> option string.

Definition emptySessions : SessionMap := fun _ => None.

Definition StoreSession (sessions : SessionMap) (sessionID userID : string) : SessionMap :=
  fun k => if String.eqb k sessionID then Some userID else sessions k.

(** [userID, ok := sessions[sessionID]]: the zero value and [false] when absent. *)
Definition GetUserIDFromSession (sessions : SessionMap) (sessionID : string) : string * bool :=
  match sessions sessionID with
  | Some userID => (userID, true)
  | None => ("", false)
  end.

Definition DeleteSession (sessions : SessionMap) (sessionID : string) : SessionMap :=
  fun k => if String.eqb k sessionID then None else sessions k.

(** ** The gin context key store ([c.Set], [c.Get], [c.GetString]) *)

Inductive CtxVal := CInt (z : Z) | CString (s : string).

Definition ctxSet (keys : list (string * CtxVal)) (k : string) (v : CtxVal) : list (string * CtxVal) :=
  (k, v) :: filter (fun kv => negb (String.eqb (fst kv) k)) keys.

Definition ctxGet (keys : list (string * CtxVal)) (k : string) : option CtxVal :=
  match find (fun kv => String.eqb (fst kv) k) keys with
  | Some (_, v) => Some v
  | None => None
  end.

(** [c.GetString]: the value when it is a [string], [""] otherwise. *)
Definition GetString (keys : list (string * CtxVal)) (k : string) : string :=
  match ctxGet keys k with
  | Some (CString s) => s
  | _ => ""
  end.

(** ** [middleware/auth_middleware.go] and its API-key revision *)

(** [utils.Claims] as far as the middleware reads it. *)
Record Claims := mkClaims { ClaimUserID : Z; ClaimEmail : string }.

(** What the middleware reads from the request. *)
Record AuthReq := mkAuthReq {
  reqCookie : option string;        (* c.Cookie("jwt_token"); None on error *)
  reqHeader : string -> string      (* c.GetHeader: "" when absent *)
}.

Inductive MwOutcome :=
  | Abort (status : Z) (msg : string)           (* c.AbortWithStatusJSON *)
  | Next (keys : list (string * CtxVal)).       (* c.Next() with the context keys *)

(** The tail both revisions share: validate, store the claims, continue. *)
Definition finishAuth (validateJWT : string -> option Claims) (keys : list (string * CtxVal))
  (tokenString : string) : MwOutcome :=
  match validateJWT tokenString with
  | None => Abort 401 "Unauthorized: Invalid or expired token"
  | Some claims =>
    Next (ctxSet (ctxSet keys "user_id" (CInt claims.(ClaimUserID))) "user_email" (CString claims.(ClaimEmail)))
  end.

(** [AuthRequired] of [middleware/auth_middleware.go]: cookie only. *)
Definition AuthRequired (validateJWT : string -> option Claims) (keys : list (string * CtxVal))
  (r : AuthReq) : MwOutcome :=
  match r.(reqCookie) with
  | None => Abort 401 "Unauthorized: No token provided"
  | Some tokenString => finishAuth validateJWT keys tokenString
  end.

(** [AuthRequired] of the API-key revision: [authDefault] is
    [os.Getenv("AUTH_DEFAULT")] ("" when unset). *)
Definition AuthRequiredAPIKey (authDefault : string) (validateJWT : string -> option Claims)
  (keys : list (string * CtxVal)) (r : AuthReq) : MwOutcome :=
  let defaultToken := r.(reqHeader) "X-API-KEY" in
  if String.eqb defaultToken authDefault then Next keys else
  match r.(reqCookie) with
  | Some tokenString => finishAuth validateJWT keys tokenString
  | None =>
    let tokenString := r.(reqHeader) "Authorization" in
    if String.eqb tokenString "" then Abort 401 "Unauthorized: No token provided" else
    let tokenString :=
      if Nat.ltb 7 (String.length tokenString) && String.eqb (substring 0 7 tokenString) "Bearer "
      then substring 7 (String.length tokenString - 7) tokenString else tokenString in
    finishAuth validateJWT keys tokenString
  end.

(** ** [store/user_store.go] *)

Record User := mkUser {
  U_ID : Z;
  U_Email : string;
  U_HashedPassword : string;
  U_CreatedAt : Z;
  U_UpdatedAt : Z
}.

(** Outcome of [QueryRowContext(...).Scan(...)] on PostgreSQL. *)
Inductive PgRow := PgFound (u : User) | PgNoRows | PgError (msg : string).

Record PgConn := mkPg {
  pg_select_user : string -> PgRow;              (* SELECT ... WHERE email = $1 *)
  pg_insert_user : string -> string -> PgRow     (* INSERT ... RETURNING ... *)
}.

(** PostgreSQL calls, in the order they are issued. *)
Inductive PgOp := PgSelectUser (email : string) | PgInsertUser (email hashed : string).

(** A double-quote character. *)
Definition dq := String (Ascii.ascii_of_nat 34) EmptyString.

Definition notFoundMsg (email : string) := "user with email '" ++ email ++ "' not found".
Definition existsMsg (email : string) := "user with email '" ++ email ++ "' already exists".

Definition GetUserByEmail (pg : PgConn) (email : string) : GoRes User :=
  match pg.(pg_select_user) email with
  | PgFound user => Ok user
  | PgNoRows => Err (notFoundMsg email)
  | PgError e => Err ("failed to get user by email: " ++ e)
  end.

Definition CreateUser (pg : PgConn) (email hashedPassword : string) : GoRes User :=
  match pg.(pg_insert_user) email hashedPassword with
  | PgFound user => Ok user
  | PgNoRows => Err ("failed to create user: " ++ errNoRows)
  | PgError e =>
    if String.eqb e ("pq: duplicate key value violates unique constraint " ++ dq ++ "idx_users_email" ++ dq) ||
       String.eqb e ("pq: duplicate key value violates unique constraint " ++ dq ++ "users_email_key" ++ dq)
    then Err (existsMsg email)
    else Err ("failed to create user: " ++ e)
  end.

(** ** [handlers/auth_handlers.go] *)

Record SignupRequest := mkSignup { SR_Email : string; SR_Password : string }.
Record LoginRequest := mkLogin { LR_Email : string; LR_Password : string }.

(** A JSON response with its string fields, and the [jwt_token] cookie
    (value, max age) when one is set. *)
Record AuthResp := mkAuthResp {
  a_status : Z;
  a_body : list (string * string);
  a_cookie : option (string * Z)
}.

Definition errResp (status : Z) (msg : string) := mkAuthResp status [("error", msg)] None.

(** [bcryptGen] is [bcrypt.GenerateFromPassword]; the request is what
    [ShouldBindJSON] yields (its error text on failure). *)
Definition Signup (pg : PgConn) (bcryptGen : string -> GoRes string) (body : GoRes SignupRequest)
  : AuthResp * list PgOp :=
  match body with
  | Err d => (mkAuthResp 400 [("error", "Invalid request body"); ("details", d)] None, [])
  | Ok req =>
    let email := req.(SR_Email) in
    match GetUserByEmail pg email with
    | Ok _ => (errResp 409 "User with this email already exists", [PgSelectUser email])
    | Err e =>
      if negb (String.eqb e (notFoundMsg email)) then
        (errResp 500 "Failed to check user existence", [PgSelectUser email])
      else
      match bcryptGen req.(SR_Password) with
      | Err _ => (errResp 500 "Failed to process password", [PgSelectUser email])
      | Ok hashedPassword =>
        let ops := [PgSelectUser email; PgInsertUser email hashedPassword] in
        match CreateUser pg email hashedPassword with
        | Err e2 =>
          if String.eqb e2 (existsMsg email)
          then (errResp 409 "User with this email already exists", ops)
          else (errResp 500 "Failed to register user", ops)
        | Ok user =>
          (mkAuthResp 201 [("message", "User registered successfully"); ("user_email", user.(U_Email))] None, ops)
        end
      end
    end
  end.

(** [bcryptCompare hash pw] is [bcrypt.CompareHashAndPassword] returning a
    nil error; [generateJWT] is [utils.GenerateJWT]. *)
Definition Login (pg : PgConn) (bcryptCompare : string -> string -> bool)
  (generateJWT : User -> GoRes string) (body : GoRes LoginRequest) : AuthResp :=
  match body with
  | Err d => mkAuthResp 400 [("error", "Invalid request body"); ("details", d)] None
  | Ok req =>
    match GetUserByEmail pg req.(LR_Email) with
    | Err _ => errResp 401 "Invalid credentials"
    | Ok user =>
      if negb (bcryptCompare user.(U_HashedPassword) req.(LR_Password)) then errResp 401 "Invalid credentials" else
      match generateJWT user with
      | Err _ => errResp 500 "Failed to generate authentication token"
      | Ok tokenString =>
        mkAuthResp 200 [("message", "Login successful"); ("user_email", user.(U_Email))]
                   (Some (tokenString, (24 * 3600)%Z))
      end
    end
  end.

(** ** Sample connections and oracles *)

Definition failingPrepareConn : Conn :=
  mkConn (fun _ _ => QRows [] None) (fun _ => Some "conn refused") (fun _ => None) None.

Definition acceptAll (t : string) : option Claims := Some (mkClaims 7 "a@b.c").
Definition rejectAll (t : string) : option Claims := None.

Definition hashOf (pw : string) : string := "hash-" ++ pw.
Definition bcryptGenOk (pw : string) : GoRes string := Ok (hashOf pw).
Definition bcryptCompareOk (h pw : string) : bool := String.eqb h (hashOf pw).
Definition jwtOk (u : User) : GoRes string := Ok "tok".

(** A user table holding [a@b.c] with password [pw]. *)
Definition knownPg : PgConn :=
  mkPg (fun e => if String.eqb e "a@b.c" then PgFound (mkUser 1 e (hashOf "pw") 0 0) else PgNoRows)
       (fun e h => PgFound (mkUser 2 e h 0 0)).

Definition brokenPg : PgConn :=
  mkPg (fun _ => PgError "connection refused") (fun _ _ => PgError "connection refused").

Definition dupPg : PgConn :=
  mkPg (fun _ => PgNoRows)
       (fun _ _ => PgError ("pq: duplicate key value violates unique constraint " ++ dq ++ "users_email_key" ++ dq)).

(** ** Generic facts *)

Lemma scanRows_app {A} (scanRow : list Value -> option A) rows1 rows2 :
  (scanRows scanRow (rows1 ++ rows2) = scanRows scanRow rows1 ++ scanRows scanRow rows2)%list.
Proof.
  induction rows1 as [|r rs IH]; simpl; [reflexivity|].
  destruct (scanRow r); rewrite IH; reflexivity.
Qed.

Lemma scanRows_length {A} (scanRow : list Value -> option A) rows :
  length (scanRows scanRow rows) <= length rows.
Proof.
  induction rows as [|r rs IH]; simpl; [lia|].
  destruct (scanRow r); simpl; lia.
Qed.

Lemma normalizeFrom_length env ip uid k evs :
  length (normalizeFrom env ip uid k evs) = length evs.
Proof.
  revert k; induction evs as [|e es IH]; intros k; simpl; [reflexivity|].
  rewrite IH; reflexivity.
Qed.

Lemma appendAll_trace evs tr : appendAll evs tr = (tt, (tr ++ map OpAppend evs)%list).
Proof.
  revert tr; induction evs as [|e es IH]; intros tr; simpl.
  - rewrite app_nil_r; reflexivity.
  - unfold bind, issue. rewrite IH, <- app_assoc. reflexivity.
Qed.

(** ** C9: empty batches *)

(** C9. Submitting an empty batch answers 200 and issues no store call at
    all; [InsertAnalyticsEvents] on an empty slice returns nil and issues
    nothing either. *)
Theorem TrackEvent_empty_batch_no_write :
  forall db env q ip uid tr,
    TrackEvent db env (mkGin q ip uid (Some [])) tr = (mkResp 200 BNone, tr) /\
    InsertAnalyticsEvents db [] tr = (Ok tt, tr).
Proof. intros; split; reflexivity. Qed.

(** ** C4: invalid intervals *)

Lemma GetEventCountsOverTime_invalid db interval start end_ f tr :
  IsValidInterval interval = false ->
  GetEventCountsOverTime db interval start end_ f tr = (Err ("invalid interval: " ++ interval), tr).
Proof. intros H; unfold GetEventCountsOverTime; rewrite H; reflexivity. Qed.

Lemma GetUniqueUsersOverTime_invalid db interval start end_ tr :
  IsValidInterval interval = false ->
  GetUniqueUsersOverTime db interval start end_ tr = (Err ("invalid interval: " ++ interval), tr).
Proof. intros H; unfold GetUniqueUsersOverTime; rewrite H; reflexivity. Qed.

Lemma parseStartEnd_inl env parse c r :
  parseStartEnd env parse c = inl r -> r = badStart \/ r = badEnd.
Proof.
  unfold parseStartEnd.
  destruct (String.eqb (ginQuery c "start") "");
    [| destruct (parse (ginQuery c "start"))];
    try (destruct (String.eqb (ginQuery c "end") ""));
    try (destruct (parse (ginQuery c "end")));
    intros P; inversion P; auto.
Qed.

(** C4, as written: an invalid interval is a validation failure
    (status 400) and no store call is issued.  False at ["day"], the
    spelling the handler's own 400 message suggests: the handler answers
    500, the status of a storage failure. *)
Lemma invalid_interval_counterexample :
  ~ (forall db env parse c,
       IsValidInterval (ginQuery c "interval") = false ->
       status (fst (GetEventCountsOverTimeH db env parse c [])) = 400%Z
       /\ snd (GetEventCountsOverTimeH db env parse c []) = []).
Proof.
  intros H.
  specialize (H (constRowsConn []) tickingEnv parseNone
                (mkGin (queryOf [("interval", "day")]) "1.2.3.4" "" None) eq_refl).
  vm_compute in H. destruct H as [H _]; discriminate H.
Qed.

(** C4. For an interval outside the enumerated set, both time-bucketed
    endpoints issue no store call.  An empty interval is answered 400 with
    the handler's "interval is required" message; a non-empty one with a
    bound that does not parse gets that bound's 400; a non-empty one with
    good bounds reaches the store, whose [IsValidInterval] check rejects it
    before any query, and the handler answers 500 with its generic
    retrieval-failure message, as for a storage failure. *)
Theorem invalid_interval_no_store_op :
  forall db env parse c,
    IsValidInterval (ginQuery c "interval") = false ->
    (ginQuery c "interval" = "" ->
       GetEventCountsOverTimeH db env parse c [] =
         (mkResp 400 (BError "interval query parameter is required (e.g., 'day', 'hour')"), []) /\
       GetUniqueUsersOverTimeH db env parse c [] =
         (mkResp 400 (BError "interval query parameter is required (e.g., 'Day', 'Hour')"), [])) /\
    (ginQuery c "interval" <> "" -> forall r, parseStartEnd env parse c = inl r ->
       (r = badStart \/ r = badEnd) /\
       GetEventCountsOverTimeH db env parse c [] = (r, []) /\
       GetUniqueUsersOverTimeH db env parse c [] = (r, [])) /\
    (ginQuery c "interval" <> "" -> forall start end_, parseStartEnd env parse c = inr (start, end_) ->
       GetEventCountsOverTimeH db env parse c [] =
         (mkResp 500 (BError "Failed to retrieve event statistics"), []) /\
       GetUniqueUsersOverTimeH db env parse c [] =
         (mkResp 500 (BError "Failed to retrieve unique user statistics"), [])).
Proof.
  intros db env parse c H.
  unfold GetEventCountsOverTimeH, GetUniqueUsersOverTimeH; cbv zeta.
  split; [|split].
  - intros E. rewrite E. split; reflexivity.
  - intros E r P. apply String.eqb_neq in E. rewrite E, P.
    split; [exact (parseStartEnd_inl env parse c r P)|split; reflexivity].
  - intros E start end_ P. apply String.eqb_neq in E. rewrite E, P.
    unfold bind. rewrite GetEventCountsOverTime_invalid, GetUniqueUsersOverTime_invalid by exact H.
    split; reflexivity.
Qed.

Lemma invalid_interval_no_store_op_witness :
  GetEventCountsOverTimeH (constRowsConn []) tickingEnv parseNone
    (mkGin (queryOf [("interval", "day")]) "1.2.3.4" "" None) [] =
  (mkResp 500 (BError "Failed to retrieve event statistics"), []).
Proof.
  destruct (invalid_interval_no_store_op (constRowsConn []) tickingEnv parseNone
              (mkGin (queryOf [("interval", "day")]) "1.2.3.4" "" None) eq_refl) as [_ [_ H]].
  exact (proj1 (H ltac:(discriminate) (0 - week)%Z 1%Z ltac:(reflexivity))).
Defined.

(** ** The ingestion normalizer of [unnamed/part_002]: C7 *)

Lemma normalizeOne_ignores_IPAddress env ip uid k e x :
  normalizeOne env ip uid k (set_IPAddress e x) = normalizeOne env ip uid k e.
Proof. destruct e; reflexivity. Qed.

Lemma normalizeFrom_ignores_IPAddress env ip uid :
  forall evs1 evs2 k,
    map (fun e => set_IPAddress e "") evs1 = map (fun e => set_IPAddress e "") evs2 ->
    normalizeFrom env ip uid k evs1 = normalizeFrom env ip uid k evs2.
Proof.
  induction evs1 as [|e1 es1 IH]; intros [|e2 es2] k H; cbn [map] in H; try discriminate; [reflexivity|].
  pose proof (f_equal (@hd _ (set_IPAddress e1 "")) H) as He.
  pose proof (f_equal (@tl _) H) as Hes.
  cbn [hd tl] in He, Hes.
  assert (E : normalizeOne env ip uid k e1 = normalizeOne env ip uid k e2).
  { rewrite <- (normalizeOne_ignores_IPAddress env ip uid k e1 ""), He.
    apply normalizeOne_ignores_IPAddress. }
  change (normalizeOne env ip uid k e1 :: normalizeFrom env ip uid (S k) es1 =
          normalizeOne env ip uid k e2 :: normalizeFrom env ip uid (S k) es2).
  rewrite E, (IH es2 (S k) Hes). reflexivity.
Qed.

Lemma normalizeFrom_IPAddress env ip uid :
  forall evs k, Forall (fun e => IPAddress e = ip) (normalizeFrom env ip uid k evs).
Proof.
  induction evs as [|e es IH]; intros k; simpl; constructor; [|apply IH].
  unfold normalizeOne; destruct (negb _); reflexivity.
Qed.

(** C7. The origin address of every stored record is the transport's
    [c.ClientIP()], and two submissions that differ only in the
    client-supplied [ipAddress] fields give the same response and the same
    store calls (hence the same stored records), for the same id and clock
    readings. *)
Theorem TrackEvent_origin_address_from_transport :
  forall db env q ip uid evs1 evs2 tr,
    map (fun e => set_IPAddress e "") evs1 = map (fun e => set_IPAddress e "") evs2 ->
    TrackEvent db env (mkGin q ip uid (Some evs1)) tr = TrackEvent db env (mkGin q ip uid (Some evs2)) tr /\
    Forall (fun e => IPAddress e = ip) (normalizeFrom env ip uid 0 evs1).
Proof.
  intros db env q ip uid evs1 evs2 tr H. split; [|apply normalizeFrom_IPAddress].
  unfold TrackEvent; simpl.
  destruct evs1 as [|e1 es1], evs2 as [|e2 es2]; simpl in H; try discriminate; [reflexivity|].
  rewrite (normalizeFrom_ignores_IPAddress env ip uid (e1 :: es1) (e2 :: es2) 0 H).
  reflexivity.
Qed.

Lemma TrackEvent_origin_address_from_transport_witness :
  map (fun e => set_IPAddress e "") [sampleEvent "click" "u" "6.6.6.6"] =
  map (fun e => set_IPAddress e "") [sampleEvent "click" "u" "10.0.0.1"] /\
  TrackEvent (constRowsConn []) tickingEnv
             (mkGin (queryOf []) "1.2.3.4" "u1" (Some [sampleEvent "click" "u" "6.6.6.6"])) [] =
  TrackEvent (constRowsConn []) tickingEnv
             (mkGin (queryOf []) "1.2.3.4" "u1" (Some [sampleEvent "click" "u" "10.0.0.1"])) [].
Proof.
  split; [reflexivity|].
  exact (proj1 (TrackEvent_origin_address_from_transport (constRowsConn []) tickingEnv (queryOf [])
           "1.2.3.4" "u1" [sampleEvent "click" "u" "6.6.6.6"] [sampleEvent "click" "u" "10.0.0.1"] []
           eq_refl)).
Defined.

(** In the [unnamed/part_002] revision the normalizer replaces a record's
    actor id by the context's [user_id] string only when the
    client-supplied actor id is non-empty; an empty client actor id is
    stored as it is (empty). *)
Theorem normalize_user_id_conditional :
  forall env ip uid k evs,
    map UserID (normalizeFrom env ip uid k evs) =
    map (fun e => if String.eqb (UserID e) "" then UserID e else uid) evs.
Proof.
  intros env ip uid k evs; revert k.
  induction evs as [|e es IH]; intros k; simpl; [reflexivity|].
  rewrite IH. f_equal.
  unfold normalizeOne; destruct e as [? ? u]; simpl.
  destruct (String.eqb u ""); reflexivity.
Qed.

(** In the [unnamed/part_002] revision the clock is read once per record:
    the [i]-th record of the batch carries the [i]-th [time.Now()] reading
    of the request, so the records share one timestamp only when the clock
    did not advance. *)
Theorem normalize_timestamp_per_record :
  forall env ip uid k evs,
    map Timestamp (normalizeFrom env ip uid k evs) = map (timeNow env) (seq k (length evs)).
Proof.
  intros env ip uid k evs; revert k.
  induction evs as [|e es IH]; intros k; simpl; [reflexivity|].
  rewrite IH; f_equal; unfold normalizeOne; try destruct (negb _); reflexivity.
Qed.

(** ** The current [TrackEvent] of [handlers/track_handlers.go]: C3, C5 *)














(** ** Average queries: C1, C2 *)

(** C1, as written: a non-empty field name outside the allow-list is
    rejected before any query is issued.  False at a quote-carrying name:
    the query is issued with the name inside it, whereas the sibling
    queries check their interval against [IsValidInterval] before
    splicing it and bind their event-type filter as an argument. *)
Lemma param_allow_list_counterexample :
  ~ (forall db f p start end_, p <> "" -> identAllowed p = false ->
       snd (GetAverageCustomEventParameter db f p start end_ []) = []).
Proof.
  intros H.
  specialize (H (constRowsConn []) "purchase" "x') OR 1=1 --" 0%Z 0%Z ltac:(discriminate) eq_refl).
  vm_compute in H. discriminate H.
Qed.

(** C1. [GetAverageCustomEventParameter] has no allow-list: only the empty
    field name is rejected (no query issued); any other name, whatever its
    characters, is spliced verbatim between single quotes into the text of
    the one query issued. *)
Theorem avg_param_name_spliced_verbatim :
  forall db f p start end_ tr,
    (p = "" -> GetAverageCustomEventParameter db f p start end_ tr =
               (Err "parameter name for average calculation cannot be empty", tr)) /\
    (p <> "" -> snd (GetAverageCustomEventParameter db f p start end_ tr) =
       (tr ++ [OpQueryRow ("SELECT avg(JSONExtractFloat(toString(event_data), '" ++ p ++
               "')) FROM analytics_events WHERE event_type = ? AND timestamp >= ? AND timestamp <= ?")
               [AStr f; ATime start; ATime end_]])%list).
Proof.
  intros db f p start end_ tr. split; intros Hp.
  - subst p; reflexivity.
  - unfold GetAverageCustomEventParameter.
    destruct (String.eqb p "") eqn:E; [apply String.eqb_eq in E; contradiction|].
    reflexivity.
Qed.

Lemma avg_param_name_spliced_verbatim_witness :
  snd (GetAverageCustomEventParameter (constRowsConn []) "purchase" "x') OR 1=1 --" 0 0 []) =
  [OpQueryRow ("SELECT avg(JSONExtractFloat(toString(event_data), '" ++ "x') OR 1=1 --" ++
               "')) FROM analytics_events WHERE event_type = ? AND timestamp >= ? AND timestamp <= ?")
              [AStr "purchase"; ATime 0; ATime 0]].
Proof.
  exact (proj2 (avg_param_name_spliced_verbatim (constRowsConn []) "purchase" "x') OR 1=1 --" 0 0 [])
           ltac:(discriminate)).
Defined.

(** [GetAverageCustomEventParameter] never returns not-a-number. *)
Lemma GetAverageCustomEventParameter_not_nan db f p start end_ tr x :
  fst (GetAverageCustomEventParameter db f p start end_ tr) = Ok x -> PrimFloat.is_nan x = false.
Proof.
  unfold GetAverageCustomEventParameter.
  destruct (String.eqb p ""); [discriminate|].
  unfold bind, QueryRowScanF64, issue, ret; simpl.
  destruct (conn_query db _ _) as [e | rows ie];
    [| destruct rows as [|[|[] [|]] rs]];
    intros H; simpl in H;
    repeat match type of H with
           | context [if ?b then _ else _] => destruct b eqn:?
           end;
    simpl in H; try discriminate; injection H as <-; (reflexivity || assumption).
Qed.

(** C2. On a not-a-number average the custom-parameter query
    returns 0, while the duration query returns the not-a-number value
    unchanged. *)
Theorem average_duration_keeps_nan :
  fst (GetAverageEventDuration nanConn "" 0 100 []) = Ok nan /\
  PrimFloat.is_nan nan = true /\
  fst (GetAverageCustomEventParameter nanConn "purchase" "revenue" 0 100 []) = Ok 0%float.
Proof. vm_compute. repeat split; reflexivity. Qed.

(** ** Top paths: C6 *)

(** C6. With the time bounds accepted: an omitted [limit] queries with 10; a
    [limit] that [ParseUint] rejects or that parses to 0 answers 400 with no
    store call; any other value is passed to the query unchanged. *)
Theorem topPath_limit_validation :
  forall db env parse c start end_,
    parseStartEnd env parse c = inr (start, end_) ->
    (ginQuery c "limit" = "" ->
       snd (GetTopNPagePathsH db env parse c []) = [OpQuery topPathsQuery [ATime start; ATime end_; AU64 10]]) /\
    (ginQuery c "limit" <> "" ->
       ParseUint10 (ginQuery c "limit") = None \/ ParseUint10 (ginQuery c "limit") = Some 0%Z ->
       GetTopNPagePathsH db env parse c [] = (badLimit, [])) /\
    (forall n, ParseUint10 (ginQuery c "limit") = Some n -> n <> 0%Z ->
       snd (GetTopNPagePathsH db env parse c []) = [OpQuery topPathsQuery [ATime start; ATime end_; AU64 n]]).
Proof.
  intros db env parse c start end_ P.
  unfold GetTopNPagePathsH; rewrite P; unfold parseLimit.
  split; [|split].
  - intros L; rewrite L; reflexivity.
  - intros L [N | N]; apply String.eqb_neq in L; rewrite L, N; reflexivity.
  - intros n N Hn.
    destruct (String.eqb (ginQuery c "limit") "") eqn:L.
    + apply String.eqb_eq in L; rewrite L in N; discriminate N.
    + rewrite N. apply Z.eqb_neq in Hn. rewrite Hn.
      unfold GetTopNPagePaths; rewrite Hn; reflexivity.
Qed.

Lemma topPath_limit_validation_witness :
  parseStartEnd tickingEnv parseSE (topCtx "3") = inr (0%Z, 100%Z) /\
  GetTopNPagePathsH (constRowsConn []) tickingEnv parseSE (topCtx "0") [] = (badLimit, []) /\
  snd (GetTopNPagePathsH (constRowsConn []) tickingEnv parseSE (topCtx "3") []) =
    [OpQuery topPathsQuery [ATime 0; ATime 100; AU64 3]].
Proof.
  split; [reflexivity|]. split.
  - exact (proj1 (proj2 (topPath_limit_validation (constRowsConn []) tickingEnv parseSE (topCtx "0") 0 100
             eq_refl)) ltac:(discriminate) (or_intror eq_refl)).
  - exact (proj2 (proj2 (topPath_limit_validation (constRowsConn []) tickingEnv parseSE (topCtx "3") 0 100
             eq_refl)) 3%Z eq_refl ltac:(discriminate)).
Defined.

(** ** Time-bucketed rows: C8, C10 *)

Open Scope Z_scope.

Lemma scanRows_Forall {A} (scanRow : list Value -> option A) (P : A -> Prop) rows :
  (forall r x, In r rows -> scanRow r = Some x -> P x) -> Forall P (scanRows scanRow rows).
Proof.
  induction rows as [|r rs IH]; intros H; simpl; [constructor|].
  destruct (scanRow r) eqn:E.
  - constructor; [apply (H r); simpl; auto | apply IH; intros; eapply H; simpl; eauto].
  - apply IH; intros; eapply H; simpl; eauto.
Qed.

Lemma scanEventCountRow_unfiltered r x :
  scanEventCountRow false r = Some x -> ECT_EventType x = None.
Proof.
  unfold scanEventCountRow.
  destruct r as [|[] [|[] [|]]]; try discriminate. intros H; injection H as <-; reflexivity.
Qed.

Lemma scanEventCountRow_filtered r x :
  scanEventCountRow true r = Some x ->
  exists s, nth_error r 2 = Some (VStr s) /\ ECT_EventType x = Some s.
Proof.
  unfold scanEventCountRow.
  destruct r as [|[] [|[] [|[] [|]]]]; try discriminate.
  intros H; injection H as <-; eexists; split; reflexivity.
Qed.

(** C8. Every row of the event-count query has no dimension when the
    [eventType] filter is empty and a dimension when it is not; that
    dimension is the scanned [event_type] column, so it equals the filter
    whenever the store answers the [WHERE event_type = ?] query with rows
    of that type. *)
Theorem eventCounts_dimension_iff_filter :
  forall db interval start end_ f tr out,
    fst (GetEventCountsOverTime db interval start end_ f tr) = Ok out ->
    (f = "" -> Forall (fun x => ECT_EventType x = None) out) /\
    (f <> "" -> Forall (fun x => ECT_EventType x <> None) out /\
                (storeHonoursTypeFilter db interval start end_ f ->
                 Forall (fun x => ECT_EventType x = Some f) out)).
Proof.
  intros db interval start end_ f tr out.
  unfold GetEventCountsOverTime.
  destruct (IsValidInterval interval); simpl; [|discriminate].
  destruct (String.eqb f "") eqn:F; simpl.
  - destruct (conn_query db _ _) as [e | rows [e|]] eqn:Q; simpl; try discriminate.
    intros H; injection H as <-. split.
    + intros _. apply scanRows_Forall. intros r x _. apply scanEventCountRow_unfiltered.
    + intros Hf. apply String.eqb_neq in Hf. congruence.
  - destruct (conn_query db _ _) as [e | rows [e|]] eqn:Q; simpl; try discriminate.
    intros H; injection H as <-. split.
    + intros Hf. subst f. discriminate F.
    + intros _. split.
      * apply scanRows_Forall. intros r x _ Hx.
        destruct (scanEventCountRow_filtered r x Hx) as [s [_ ->]]. discriminate.
      * intros Hst. apply scanRows_Forall. intros r x Hin Hx.
        destruct (scanEventCountRow_filtered r x Hx) as [s [Hn ->]].
        f_equal. exact (Hst rows None Q r s Hin Hn).
Qed.

Lemma eventCounts_dimension_iff_filter_witness :
  fst (GetEventCountsOverTime (constRowsConn clickRows) "Day" 0 100 "click" []) =
    Ok [mkCount 0 (Some "click") 3; mkCount 86400 (Some "click") 5] /\
  Forall (fun x => ECT_EventType x = Some "click") [mkCount 0 (Some "click") 3; mkCount 86400 (Some "click") 5].
Proof.
  split; [reflexivity|].
  refine (proj2 (proj2 (eventCounts_dimension_iff_filter (constRowsConn clickRows) "Day" 0 100 "click" []
                          _ eq_refl) ltac:(discriminate)) _).
  intros rows ie Q r s Hin Hn. simpl in Q. injection Q as <- _.
  simpl in Hin. destruct Hin as [<- | [<- | []]]; simpl in Hn; injection Hn as <-; reflexivity.
Defined.

(** C10. For every row-returning aggregation, when the store yields [rows]
    without an iteration error, the result is [Ok] of the rows that scan, in
    order: a row that does not scan is dropped and the loop goes on, so the
    result never has more rows than the store produced. *)
Theorem malformed_rows_skipped :
  forall db rows,
    (forall q args, conn_query db q args = QRows rows None) ->
    (forall interval start end_ f tr, IsValidInterval interval = true ->
       fst (GetEventCountsOverTime db interval start end_ f tr) =
       Ok (scanRows (scanEventCountRow (negb (String.eqb f ""))) rows)) /\
    (forall interval start end_ tr, IsValidInterval interval = true ->
       fst (GetUniqueUsersOverTime db interval start end_ tr) = Ok (scanRows scanUniqueUsersRow rows)) /\
    (forall start end_ limit tr,
       fst (GetTopNPagePaths db start end_ limit tr) = Ok (scanRows scanTopPathRow rows)) /\
    (forall A (scanRow : list Value -> option A) rows1 bad rows2,
       rows = (rows1 ++ bad :: rows2)%list -> scanRow bad = None ->
       scanRows scanRow rows = (scanRows scanRow rows1 ++ scanRows scanRow rows2)%list) /\
    (forall A (scanRow : list Value -> option A), (length (scanRows scanRow rows) <= length rows)%nat).
Proof.
  intros db rows Q. split; [|split; [|split; [|split]]].
  - intros interval start end_ f tr V.
    unfold GetEventCountsOverTime; rewrite V; simpl. rewrite Q. reflexivity.
  - intros interval start end_ tr V.
    unfold GetUniqueUsersOverTime; rewrite V; simpl. rewrite Q. reflexivity.
  - intros start end_ limit tr.
    unfold GetTopNPagePaths; simpl. rewrite Q. reflexivity.
  - intros A scanRow rows1 bad rows2 -> B.
    rewrite scanRows_app. simpl. rewrite B. reflexivity.
  - intros A scanRow. apply scanRows_length.
Qed.

Lemma malformed_rows_skipped_witness :
  fst (GetUniqueUsersOverTime (constRowsConn mixedRows) "Minute" 0 100 []) =
    Ok (scanRows scanUniqueUsersRow mixedRows) /\
  scanRows scanUniqueUsersRow mixedRows = [mkCount 0 None 2; mkCount 60 None 1].
Proof.
  split; [|reflexivity].
  exact (proj1 (proj2 (malformed_rows_skipped (constRowsConn mixedRows) mixedRows (fun _ _ => eq_refl)))
           "Minute" 0 100 [] eq_refl).
Defined.

(** ** Further properties of the ingestion path *)


(** A non-empty batch whose batch statement is prepared is appended record
    by record, in order, each exactly once, then sent once; the result is
    the send's. *)
Theorem InsertAnalyticsEvents_appends_each db evs tr :
  evs <> [] -> conn_prepare db insertQuery = None ->
  InsertAnalyticsEvents db evs tr =
  (match conn_send db with
   | Some e => Err ("failed to send batch: " ++ e)
   | None => Ok tt
   end,
   (tr ++ OpPrepareBatch insertQuery :: map OpAppend evs ++ [OpSend])%list).
Proof.
  intros Hne Hp. destruct evs as [|e0 es]; [contradiction|].
  unfold InsertAnalyticsEvents. unfold bind at 1, issue at 1. rewrite Hp.
  unfold bind. rewrite appendAll_trace. unfold issue.
  rewrite <- !app_assoc. destruct (conn_send db); reflexivity.
Qed.

Lemma InsertAnalyticsEvents_appends_each_witness :
  InsertAnalyticsEvents (constRowsConn []) [sampleEvent "click" "u" "a"] [] =
  (Ok tt, [OpPrepareBatch insertQuery; OpAppend (sampleEvent "click" "u" "a"); OpSend]).
Proof.
  exact (InsertAnalyticsEvents_appends_each (constRowsConn []) [sampleEvent "click" "u" "a"] []
           ltac:(discriminate) eq_refl).
Defined.

(** When preparing the batch fails, no record is appended and nothing is
    sent. *)
Theorem InsertAnalyticsEvents_prepare_error db evs tr e :
  evs <> [] -> conn_prepare db insertQuery = Some e ->
  InsertAnalyticsEvents db evs tr =
  (Err ("failed to prepare batch insert: " ++ e), (tr ++ [OpPrepareBatch insertQuery])%list).
Proof.
  intros Hne Hp. destruct evs as [|e0 es]; [contradiction|].
  unfold InsertAnalyticsEvents, bind, issue. rewrite Hp. reflexivity.
Qed.

Lemma InsertAnalyticsEvents_prepare_error_witness :
  InsertAnalyticsEvents failingPrepareConn [sampleEvent "click" "u" "a"] [] =
  (Err ("failed to prepare batch insert: " ++ "conn refused"), [OpPrepareBatch insertQuery]).
Proof.
  exact (InsertAnalyticsEvents_prepare_error failingPrepareConn [sampleEvent "click" "u" "a"] []
           "conn refused" ltac:(discriminate) eq_refl).
Defined.

(** [TrackEvent] on a non-empty batch hands the normalized batch to the
    store writer: one prepare, one append per submitted record in order,
    one send; it answers 200 exactly when the send succeeds, 500 otherwise. *)
Theorem TrackEvent_nonempty_batch db env q ip uid evs :
  evs <> [] -> conn_prepare db insertQuery = None ->
  TrackEvent db env (mkGin q ip uid (Some evs)) [] =
  (match conn_send db with
   | Some _ => mkResp 500 (BError "Failed to record analytics events")
   | None => mkResp 200 BSuccess
   end,
   OpPrepareBatch insertQuery :: (map OpAppend (normalizeFrom env ip uid 0 evs) ++ [OpSend])%list).
Proof.
  intros Hne Hp. destruct evs as [|e0 es]; [contradiction|].
  unfold TrackEvent, bind. cbn -[InsertAnalyticsEvents normalizeFrom].
  rewrite (InsertAnalyticsEvents_appends_each db (normalizeFrom env ip uid 0 (e0 :: es)) []
             ltac:(discriminate) Hp).
  destruct (conn_send db); reflexivity.
Qed.

Lemma TrackEvent_nonempty_batch_witness :
  snd (TrackEvent (constRowsConn []) tickingEnv (mkGin (queryOf []) "1.2.3.4" "" (Some [sampleEvent "click" "" "x"])) []) =
  OpPrepareBatch insertQuery :: (map OpAppend (normalizeFrom tickingEnv "1.2.3.4" "" 0 [sampleEvent "click" "" "x"]) ++ [OpSend])%list.
Proof.
  rewrite (TrackEvent_nonempty_batch (constRowsConn []) tickingEnv (queryOf []) "1.2.3.4" ""
             [sampleEvent "click" "" "x"] ltac:(discriminate) eq_refl).
  reflexivity.
Defined.

Lemma normalize_EventIDs env ip uid k evs :
  map EventID (normalizeFrom env ip uid k evs) = map (uuidNew env) (seq k (length evs)).
Proof.
  revert k; induction evs as [|e es IH]; intros k; simpl; [reflexivity|].
  rewrite IH; f_equal; unfold normalizeOne; try destruct (negb _); reflexivity.
Qed.

(** The [i]-th stored record gets the [i]-th generated UUID, so the records
    of one batch carry pairwise distinct ids whenever the generator returns
    distinct values within the request. *)
Theorem normalize_ids_distinct env ip uid evs :
  (forall i j, (i < length evs)%nat -> (j < length evs)%nat -> uuidNew env i = uuidNew env j -> i = j) ->
  NoDup (map EventID (normalizeFrom env ip uid 0 evs)).
Proof.
  intros Hinj. rewrite normalize_EventIDs.
  apply NoDup_map_NoDup_ForallPairs; [|apply seq_NoDup].
  intros i j Hi Hj. apply in_seq in Hi, Hj. apply Hinj; lia.
Qed.

Lemma normalize_ids_distinct_witness :
  NoDup (map EventID (normalizeFrom tickingEnv "1.2.3.4" "" 0
                        [sampleEvent "click" "" "a"; sampleEvent "view" "" "b"])).
Proof.
  apply normalize_ids_distinct.
  intros i j Hi Hj H. simpl in Hi, Hj.
  destruct i as [|[|i]]; destruct j as [|[|j]]; try lia; vm_compute in H; congruence.
Defined.

(** The normalizer touches only the id, origin address, actor id and
    timestamp: every other client-supplied field is stored as submitted. *)
Theorem normalize_keeps_client_fields env ip uid k evs :
  map (fun e => (EventType e, SessionID e, PagePath e, Referrer e, UserAgent e,
                 DurationMs e, Products e, Location e, EventData e))
      (normalizeFrom env ip uid k evs) =
  map (fun e => (EventType e, SessionID e, PagePath e, Referrer e, UserAgent e,
                 DurationMs e, Products e, Location e, EventData e)) evs.
Proof.
  revert k; induction evs as [|e es IH]; intros k; simpl; [reflexivity|].
  rewrite IH; f_equal; unfold normalizeOne; try destruct (negb _); reflexivity.
Qed.

(** ** Further properties of the query path *)

(** The event-type filter never enters the query text: the text is the
    same for every non-empty filter, and the filter value travels as the
    third bound argument; the interval that is spliced in is always one of
    the seven allowed names, since the one query is issued only after
    [IsValidInterval] accepts it. *)
Theorem eventCounts_filter_is_bound db interval start end_ f tr :
  (forall f1 f2, f1 <> "" -> f2 <> "" -> eventCountsQuery interval f1 = eventCountsQuery interval f2) /\
  (IsValidInterval interval = false -> snd (GetEventCountsOverTime db interval start end_ f tr) = tr) /\
  (IsValidInterval interval = true -> f <> "" ->
     snd (GetEventCountsOverTime db interval start end_ f tr) =
     (tr ++ [OpQuery (eventCountsQuery interval f) [ATime start; ATime end_; AStr f]])%list).
Proof.
  split; [|split].
  - intros f1 f2 H1 H2. unfold eventCountsQuery.
    apply String.eqb_neq in H1, H2. rewrite H1, H2. reflexivity.
  - intros V. unfold GetEventCountsOverTime; rewrite V; reflexivity.
  - intros V Hf. unfold GetEventCountsOverTime; rewrite V.
    apply String.eqb_neq in Hf. rewrite Hf. reflexivity.
Qed.

Lemma eventCounts_filter_is_bound_witness :
  eventCountsQuery "Day" "click" = eventCountsQuery "Day" "x' OR 1=1" /\
  snd (GetEventCountsOverTime (constRowsConn []) "Day" 0 100 "click" []) =
  [OpQuery (eventCountsQuery "Day" "click") [ATime 0; ATime 100; AStr "click"]].
Proof.
  destruct (eventCounts_filter_is_bound (constRowsConn []) "Day" 0 100 "click" []) as [A [_ C]].
  split; [apply A; discriminate | apply C; [reflexivity | discriminate]].
Defined.

(** Unique-actor rows never carry a dimension label. *)
Theorem uniqueUsers_no_dimension db interval start end_ tr out :
  fst (GetUniqueUsersOverTime db interval start end_ tr) = Ok out ->
  Forall (fun x => ECT_EventType x = None) out.
Proof.
  unfold GetUniqueUsersOverTime.
  destruct (IsValidInterval interval); simpl; [|discriminate].
  destruct (conn_query db _ _) as [e | rows [e|]]; simpl; try discriminate.
  intros H; injection H as <-. apply scanRows_Forall.
  intros r x _. unfold scanUniqueUsersRow.
  destruct r as [|[] [|[] [|]]]; try discriminate. intros H; injection H as <-; reflexivity.
Qed.

Lemma uniqueUsers_no_dimension_witness :
  Forall (fun x => ECT_EventType x = None) [mkCount 0 None 2; mkCount 60 None 1].
Proof.
  apply (uniqueUsers_no_dimension (constRowsConn mixedRows) "Minute" 0 100 []).
  reflexivity.
Defined.

Lemma parseDigits_nonneg s : forall acc n, 0 <= acc -> parseDigits s acc = Some n -> 0 <= n.
Proof.
  induction s as [|ch rest IH]; intros acc n Hacc H; simpl in H.
  - injection H as <-; exact Hacc.
  - destruct ((0 <=? _) && (_ <=? 9)) eqn:D; [|discriminate].
    apply andb_prop in D as [D1 D2]. apply Z.leb_le in D1.
    eapply IH; [|exact H]. lia.
Qed.

(** [ParseUint] with base 10 and 64 bits accepts only values of [uint64]. *)
Lemma ParseUint10_range s n : ParseUint10 s = Some n -> 0 <= n < 2 ^ 64.
Proof.
  unfold ParseUint10. destruct (String.eqb s ""); [discriminate|].
  destruct (parseDigits s 0) as [m|] eqn:P; [|discriminate].
  destruct (m <? 2 ^ 64) eqn:L; [|discriminate].
  intros H; injection H as <-. apply Z.ltb_lt in L.
  pose proof (parseDigits_nonneg s 0 m ltac:(lia) P). lia.
Qed.

(** Whatever the request, the top-paths endpoint issues no store call or
    exactly one query, whose [LIMIT] argument is a [uint64] of at least 1;
    the store itself turns a limit of 0 into 10. *)
Theorem topPaths_limit_positive db env parse c :
  (snd (GetTopNPagePathsH db env parse c []) = [] \/
   exists start end_ n,
     snd (GetTopNPagePathsH db env parse c []) = [OpQuery topPathsQuery [ATime start; ATime end_; AU64 n]] /\
     1 <= n < 2 ^ 64) /\
  (forall start end_ tr,
     snd (GetTopNPagePaths db start end_ 0 tr) =
     (tr ++ [OpQuery topPathsQuery [ATime start; ATime end_; AU64 10]])%list).
Proof.
  split; [|intros; reflexivity].
  unfold GetTopNPagePathsH.
  destruct (parseStartEnd env parse c) as [r | [start end_]]; [left; reflexivity|].
  unfold parseLimit.
  destruct (String.eqb (ginQuery c "limit") ""); [|destruct (ParseUint10 _) as [n|] eqn:P].
  - right. exists start, end_, 10. split; [reflexivity | lia].
  - destruct (Z.eqb n 0) eqn:N; [left; reflexivity|].
    apply ParseUint10_range in P. apply Z.eqb_neq in N.
    right. exists start, end_, n. split; [|lia].
    unfold GetTopNPagePaths, bind, Query, issue, ret. apply Z.eqb_neq in N as N'.
    rewrite N'. reflexivity.
  - left; reflexivity.
Qed.

Lemma topPaths_limit_positive_witness :
  snd (GetTopNPagePathsH (constRowsConn []) tickingEnv parseSE (topCtx "3") []) = [] \/
  exists start end_ n,
    snd (GetTopNPagePathsH (constRowsConn []) tickingEnv parseSE (topCtx "3") []) =
      [OpQuery topPathsQuery [ATime start; ATime end_; AU64 n]] /\ 1 <= n < 2 ^ 64.
Proof. exact (proj1 (topPaths_limit_positive (constRowsConn []) tickingEnv parseSE (topCtx "3"))). Defined.

(** When [QueryRow] finds an empty result set, both average queries give
    0: the [sql.ErrNoRows] error is turned into a 0 result, not an error.
    (An [avg] row holding NaN is a different case: see C2.) *)
Theorem averages_no_rows_zero db f p start end_ tr :
  (forall q args, conn_query db q args = QRows [] None) ->
  fst (GetAverageEventDuration db f start end_ tr) = Ok 0%float /\
  (p <> "" -> fst (GetAverageCustomEventParameter db f p start end_ tr) = Ok 0%float).
Proof.
  intros Q. split.
  - unfold GetAverageEventDuration, QueryRowScanF64, bind, issue, ret. simpl. rewrite Q. reflexivity.
  - intros Hp. unfold GetAverageCustomEventParameter.
    apply String.eqb_neq in Hp. rewrite Hp.
    unfold QueryRowScanF64, bind, issue, ret. simpl. rewrite Q. reflexivity.
Qed.

Lemma averages_no_rows_zero_witness :
  fst (GetAverageEventDuration (constRowsConn []) "" 0 100 []) = Ok 0%float.
Proof.
  exact (proj1 (averages_no_rows_zero (constRowsConn []) "" "revenue" 0 100 [] (fun _ _ => eq_refl))).
Defined.

Lemma GetAverageCustomEventParameter_not_nan_witness :
  PrimFloat.is_nan 0%float = false.
Proof.
  apply (GetAverageCustomEventParameter_not_nan nanConn "purchase" "revenue" 0 100 []).
  reflexivity.
Defined.

(** A [start] bound that does not parse as RFC 3339 makes every stats
    endpoint answer 400 without any store call. *)
Theorem stats_bad_start_no_store_op db env parse c :
  ginQuery c "start" <> "" -> parse (ginQuery c "start") = None ->
  (forall h, In h [GetEventCountsOverTimeH db env parse; GetAverageEventDurationH db env parse;
                   GetAverageCustomEventParameterH db env parse; GetUniqueUsersOverTimeH db env parse;
                   GetTopNPagePathsH db env parse] ->
   status (fst (h c [])) = 400 /\ snd (h c []) = []).
Proof.
  intros Hs Hp.
  assert (P : parseStartEnd env parse c = inl badStart).
  { unfold parseStartEnd. apply String.eqb_neq in Hs. rewrite Hs, Hp. reflexivity. }
  intros h Hin. simpl in Hin.
  destruct Hin as [<- | [<- | [<- | [<- | [<- | []]]]]].
  - unfold GetEventCountsOverTimeH. destruct (String.eqb _ ""); [split; reflexivity|].
    rewrite P. split; reflexivity.
  - unfold GetAverageEventDurationH. rewrite P. split; reflexivity.
  - unfold GetAverageCustomEventParameterH.
    destruct (String.eqb (ginQuery c "eventType") ""); [split; reflexivity|].
    destruct (String.eqb (ginQuery c "paramName") ""); [split; reflexivity|].
    rewrite P. split; reflexivity.
  - unfold GetUniqueUsersOverTimeH. destruct (String.eqb _ ""); [split; reflexivity|].
    rewrite P. split; reflexivity.
  - unfold GetTopNPagePathsH. rewrite P. split; reflexivity.
Qed.

Lemma stats_bad_start_no_store_op_witness :
  snd (GetTopNPagePathsH (constRowsConn []) tickingEnv parseNone (topCtx "3") []) = [].
Proof.
  apply (stats_bad_start_no_store_op (constRowsConn []) tickingEnv parseNone (topCtx "3")
           ltac:(discriminate) eq_refl).
  simpl; tauto.
Defined.

(** ** Sessions, authentication middleware and account handlers *)

Lemma ctxGet_ctxSet_same keys k v : ctxGet (ctxSet keys k v) k = Some v.
Proof. unfold ctxGet, ctxSet; simpl. rewrite String.eqb_refl. reflexivity. Qed.

Lemma ctxGet_ctxSet_other keys k k' v :
  k' <> k -> ctxGet (ctxSet keys k v) k' = ctxGet keys k'.
Proof.
  intros Hne. unfold ctxGet, ctxSet; simpl.
  assert (E : String.eqb k k' = false) by (apply String.eqb_neq; congruence).
  rewrite E.
  induction keys as [|[k0 v0] ks IH]; simpl; [reflexivity|].
  destruct (String.eqb k0 k) eqn:K; simpl.
  - apply String.eqb_eq in K; subst k0. rewrite E. exact IH.
  - destruct (String.eqb k0 k'); [reflexivity | exact IH].
Qed.

(** [AuthRequired] lets a request through only with a [jwt_token] cookie
    that validates; it then stores the user id as an [int], so
    [c.GetString("user_id")] (what [TrackEvent] reads) is the empty string,
    while [c.GetString("user_email")] is the token's email. *)
Theorem AuthRequired_next_keys validateJWT keys0 r keys :
  AuthRequired validateJWT keys0 r = Next keys ->
  exists tok claims,
    reqCookie r = Some tok /\ validateJWT tok = Some claims /\
    ctxGet keys "user_id" = Some (CInt (ClaimUserID claims)) /\
    GetString keys "user_id" = "" /\
    GetString keys "user_email" = ClaimEmail claims.
Proof.
  unfold AuthRequired, finishAuth.
  destruct (reqCookie r) as [tok|]; [|discriminate].
  destruct (validateJWT tok) as [claims|] eqn:V; [|discriminate].
  intros H; injection H as <-.
  exists tok, claims.
  unfold GetString. rewrite ctxGet_ctxSet_same, ctxGet_ctxSet_other, ctxGet_ctxSet_same by discriminate.
  repeat split; assumption.
Qed.

Lemma AuthRequired_next_keys_witness :
  GetString (ctxSet (ctxSet [] "user_id" (CInt 7)) "user_email" (CString "a@b.c")) "user_id" = "".
Proof.
  destruct (AuthRequired_next_keys acceptAll [] (mkAuthReq (Some "tok") (fun _ => ""))
              (ctxSet (ctxSet [] "user_id" (CInt 7)) "user_email" (CString "a@b.c")) eq_refl)
    as [tok [claims [_ [_ [_ [G _]]]]]].
  exact G.
Defined.

(** Without a cookie, or with a token the validator refuses, the
    middleware aborts with 401 and the handler behind it never runs. *)
Theorem AuthRequired_rejects validateJWT keys0 r :
  (forall tok, reqCookie r = Some tok -> validateJWT tok = None) ->
  exists msg, AuthRequired validateJWT keys0 r = Abort 401 msg.
Proof.
  intros H. unfold AuthRequired, finishAuth.
  destruct (reqCookie r) as [tok|]; [|eexists; reflexivity].
  rewrite (H tok eq_refl). eexists; reflexivity.
Qed.

Lemma AuthRequired_rejects_witness :
  exists msg, AuthRequired rejectAll [] (mkAuthReq (Some "expired") (fun _ => "")) = Abort 401 msg.
Proof. apply AuthRequired_rejects. intros tok _. reflexivity. Defined.

(** In the API-key revision of [AuthRequired], a request whose [X-API-KEY]
    header equals [AUTH_DEFAULT] passes without any token check and
    without an identity in the context.  With [AUTH_DEFAULT] unset both are
    [""], so any request without that header passes, even when every
    token would be rejected. *)
Theorem AuthRequiredAPIKey_default_bypass authDefault validateJWT keys0 r :
  reqHeader r "X-API-KEY" = authDefault ->
  AuthRequiredAPIKey authDefault validateJWT keys0 r = Next keys0.
Proof.
  intros H. unfold AuthRequiredAPIKey. rewrite H, String.eqb_refl. reflexivity.
Qed.

Lemma AuthRequiredAPIKey_default_bypass_witness :
  AuthRequiredAPIKey "" rejectAll [] (mkAuthReq None (fun _ => "")) = Next [].
Proof. apply AuthRequiredAPIKey_default_bypass. reflexivity. Defined.

Lemma substring_full s : substring 0 (String.length s) s = s.
Proof. induction s as [|ch s IH]; simpl; [reflexivity | rewrite IH; reflexivity]. Qed.

(** Without a cookie, the API-key revision validates the [Authorization]
    header with a leading ["Bearer "] removed. *)
Theorem AuthRequiredAPIKey_bearer authDefault validateJWT keys0 r t :
  reqHeader r "X-API-KEY" <> authDefault -> reqCookie r = None ->
  reqHeader r "Authorization" = "Bearer " ++ t -> t <> "" ->
  AuthRequiredAPIKey authDefault validateJWT keys0 r = finishAuth validateJWT keys0 t.
Proof.
  intros Hk Hc Ha Ht. unfold AuthRequiredAPIKey.
  apply String.eqb_neq in Hk. rewrite Hk, Hc, Ha. simpl.
  destruct t as [|ch t']; [contradiction|]. simpl.
  rewrite substring_full. reflexivity.
Qed.

Lemma AuthRequiredAPIKey_bearer_witness :
  AuthRequiredAPIKey "secret" acceptAll []
    (mkAuthReq None (fun h => if String.eqb h "Authorization" then "Bearer abc" else "")) =
  finishAuth acceptAll [] "abc".
Proof.
  apply (AuthRequiredAPIKey_bearer "secret" acceptAll []
           (mkAuthReq None (fun h => if String.eqb h "Authorization" then "Bearer abc" else "")) "abc");
    first [discriminate | reflexivity].
Defined.

(** Signup issues an INSERT only after the lookup found no row for the
    requested email and the password was hashed: a lookup error is never
    taken for "not found". *)
Theorem Signup_insert_requires_absent pg bcryptGen body e h :
  In (PgInsertUser e h) (snd (Signup pg bcryptGen body)) ->
  exists req, body = Ok req /\ e = req.(SR_Email) /\
    pg.(pg_select_user) e = PgNoRows /\ bcryptGen req.(SR_Password) = Ok h.
Proof.
  unfold Signup, GetUserByEmail.
  destruct body as [req|d]; [|simpl; tauto].
  destruct (pg_select_user pg (SR_Email req)) as [u| |m] eqn:Hs.
  - simpl. intros [H|H]; [discriminate|contradiction].
  - rewrite String.eqb_refl. simpl.
    destruct (bcryptGen (SR_Password req)) as [h'|d] eqn:Hg.
    + destruct (CreateUser pg (SR_Email req) h') as [u|e2];
        [|destruct (String.eqb e2 (existsMsg (SR_Email req)))];
        simpl; intros [H|[H|H]]; try discriminate; try contradiction;
        injection H as <- <-; exists req; auto.
    + simpl. intros [H|H]; [discriminate|contradiction].
  - simpl. intros [H|H]; [discriminate|contradiction].
Qed.

Lemma Signup_insert_requires_absent_witness :
  In (PgInsertUser "new@b.c" (hashOf "pw"))
     (snd (Signup knownPg bcryptGenOk (Ok (mkSignup "new@b.c" "pw")))) /\
  exists req, Ok (mkSignup "new@b.c" "pw") = Ok req /\ "new@b.c" = req.(SR_Email) /\
    knownPg.(pg_select_user) "new@b.c" = PgNoRows /\ bcryptGenOk req.(SR_Password) = Ok (hashOf "pw").
Proof.
  assert (H : In (PgInsertUser "new@b.c" (hashOf "pw"))
     (snd (Signup knownPg bcryptGenOk (Ok (mkSignup "new@b.c" "pw"))))) by (vm_compute; auto).
  split; [exact H|].
  exact (Signup_insert_requires_absent knownPg bcryptGenOk _ _ _ H).
Defined.

(** A database error during the email lookup answers 500 and stops
    before hashing or inserting. *)
Theorem Signup_lookup_error_500 pg bcryptGen req m :
  pg.(pg_select_user) req.(SR_Email) = PgError m ->
  Signup pg bcryptGen (Ok req) =
    (errResp 500 "Failed to check user existence", [PgSelectUser req.(SR_Email)]).
Proof.
  intros Hs. unfold Signup, GetUserByEmail. rewrite Hs. reflexivity.
Qed.

Lemma Signup_lookup_error_500_witness :
  Signup brokenPg bcryptGenOk (Ok (mkSignup "a@b.c" "pw")) =
    (errResp 500 "Failed to check user existence", [PgSelectUser "a@b.c"]).
Proof. apply Signup_lookup_error_500 with (m := "connection refused"). reflexivity. Defined.

(** An existing email answers 409, either at the lookup or, when a
    concurrent insert wins, through the unique-constraint error of the
    INSERT. *)
Theorem Signup_duplicate_conflict pg bcryptGen req :
  (exists u, pg.(pg_select_user) req.(SR_Email) = PgFound u) \/
  (pg.(pg_select_user) req.(SR_Email) = PgNoRows /\
   exists h c, bcryptGen req.(SR_Password) = Ok h /\
     (c = "idx_users_email" \/ c = "users_email_key") /\
     pg.(pg_insert_user) req.(SR_Email) h =
       PgError ("pq: duplicate key value violates unique constraint " ++ dq ++ c ++ dq)) ->
  a_status (fst (Signup pg bcryptGen (Ok req))) = 409%Z.
Proof.
  unfold Signup, GetUserByEmail.
  intros [[u Hs]|[Hs [h [c [Hg [Hc Hi]]]]]]; rewrite Hs; [reflexivity|].
  rewrite String.eqb_refl. simpl. rewrite Hg. unfold CreateUser. rewrite Hi.
  destruct Hc as [->| ->]; simpl; rewrite ?String.eqb_refl; simpl;
    rewrite ?orb_true_r; simpl; rewrite ?String.eqb_refl; reflexivity.
Qed.

Lemma Signup_duplicate_conflict_witness :
  a_status (fst (Signup dupPg bcryptGenOk (Ok (mkSignup "a@b.c" "pw")))) = 409%Z.
Proof.
  apply Signup_duplicate_conflict. right. split; [reflexivity|].
  exists (hashOf "pw"), "users_email_key". split; [reflexivity|]. split; [right; reflexivity|].
  reflexivity.
Defined.

(** Login answers the same 401 "Invalid credentials", with no cookie,
    whether the email is unknown, the lookup failed or the password does
    not match. *)
Theorem Login_failures_identical pg bcryptCompare generateJWT req :
  (forall u, pg.(pg_select_user) req.(LR_Email) = PgFound u ->
             bcryptCompare u.(U_HashedPassword) req.(LR_Password) = false) ->
  Login pg bcryptCompare generateJWT (Ok req) = errResp 401 "Invalid credentials".
Proof.
  intros H. unfold Login, GetUserByEmail.
  destruct (pg_select_user pg (LR_Email req)) as [u| |m] eqn:Hs; try reflexivity.
  rewrite (H u eq_refl). reflexivity.
Qed.

Lemma Login_failures_identical_witness :
  Login knownPg bcryptCompareOk jwtOk (Ok (mkLogin "a@b.c" "wrong")) = errResp 401 "Invalid credentials".
Proof.
  apply Login_failures_identical. intros u Hu. vm_compute in Hu.
  injection Hu as <-. reflexivity.
Defined.

(** Login sets the [jwt_token] cookie only for a stored user whose
    password matches and whose token was signed, with a max age of one
    day (86400 seconds). *)
Theorem Login_cookie_only_on_success pg bcryptCompare generateJWT body tok age :
  a_cookie (Login pg bcryptCompare generateJWT body) = Some (tok, age) ->
  exists req u, body = Ok req /\ pg.(pg_select_user) req.(LR_Email) = PgFound u /\
    bcryptCompare u.(U_HashedPassword) req.(LR_Password) = true /\
    generateJWT u = Ok tok /\ age = 86400%Z.
Proof.
  unfold Login, GetUserByEmail.
  destruct body as [req|d]; [|discriminate].
  destruct (pg_select_user pg (LR_Email req)) as [u| |m] eqn:Hs; try discriminate.
  destruct (bcryptCompare (U_HashedPassword u) (LR_Password req)) eqn:Hc; [|discriminate].
  destruct (generateJWT u) as [t|e] eqn:Hj; [|discriminate].
  simpl. intros H. injection H as <- <-. exists req, u. auto.
Qed.

Lemma Login_cookie_only_on_success_witness :
  a_cookie (Login knownPg bcryptCompareOk jwtOk (Ok (mkLogin "a@b.c" "pw"))) = Some ("tok", 86400%Z) /\
  exists req u, Ok (mkLogin "a@b.c" "pw") = Ok req /\ knownPg.(pg_select_user) req.(LR_Email) = PgFound u /\
    bcryptCompareOk u.(U_HashedPassword) req.(LR_Password) = true /\
    jwtOk u = Ok "tok" /\ 86400%Z = 86400%Z.
Proof.
  assert (H : a_cookie (Login knownPg bcryptCompareOk jwtOk (Ok (mkLogin "a@b.c" "pw")))
              = Some ("tok", 86400%Z)) by reflexivity.
  split; [exact H|]. exact (Login_cookie_only_on_success _ _ _ _ _ _ H).
Defined.
